(** * cached_property: a cached property with cache invalidation

    A shallow embedding of [src/web/cached_property.py].  The descriptor
    [cached_property] wraps three optional Python functions ([fget],
    [fset], [fdel]) and caches the value computed by [fget] inside the
    owning object's [__dict__], under the key [fget.__name__].

    Python objects live in a store that maps a reference to the object's
    [__dict__]; user functions are arbitrary store transformers that may
    return or raise.  Every call of a user function is logged, so that
    "is invoked exactly once" is a statement about the log. *)

From Stdlib Require Import ZArith.
From stdpp Require Import gmap strings list fin_maps.

Open Scope string_scope.
Open Scope list_scope.

(** ** Values, exceptions and the object store *)

Definition ref := nat.

Inductive value :=
| VNone
| VInt (z : Z)
| VStr (s : string)
| VObj (r : ref).

Inductive exception :=
| AttributeError (msg : string)
| KeyError (key : string)
| Raised (cls msg : string).

(** The three conditions the descriptor signals itself. *)
Definition Unreadable : exception := AttributeError "unreadable attribute".
Definition Unwritable : exception := AttributeError "can't set attribute".
Definition Undeletable : exception := AttributeError "can't delete attribute".

(** What [None.__name__] raises. *)
Definition NoneType_has_no_name : exception :=
  AttributeError "'NoneType' object has no attribute '__name__'".

(** A Python function object: its [__name__], its [__doc__] and its body,
    which receives the positional arguments and the store, and gives back
    the store it leaves behind together with a raised exception or a
    returned value. *)
Record pyfunc := def {
  __name__ : string;
  func_doc : option string;
  __code__ : list value -> gmap ref (gmap string value) ->
             gmap ref (gmap string value) * (exception + value)
}.

Inductive call := Called (f : pyfunc) (args : list value).

Record world := World {
  store : gmap ref (gmap string value);
  calls : list call
}.

(** [obj.__dict__]; an object the store does not mention has an empty one. *)
Definition obj_dict (h : gmap ref (gmap string value)) (obj : ref)
  : gmap string value :=
  default ∅ (h !! obj).

(** The cache slot of [obj] under key [k]. *)
Definition slot (w : world) (obj : ref) (k : string) : option value :=
  obj_dict (store w) obj !! k.

(** ** A state-and-exception monad for the descriptor's methods *)

Definition M (A : Type) : Type := world -> world * (exception + A).

Definition ret {A} (a : A) : M A := fun w => (w, inr a).

Definition raise {A} (e : exception) : M A := fun w => (w, inl e).

Definition bind {A B} (m : M A) (k : A -> M B) : M B :=
  fun w => match m w with
           | (w', inl e) => (w', inl e)
           | (w', inr a) => k a w'
           end.

Notation "x <- m ;; k" := (bind m (fun x => k))
  (at level 100, m at next level, right associativity).
Notation "m ;;; k" := (bind m (fun _ => k))
  (at level 100, right associativity).

(** Calling [f] on positional arguments: run the body on the store and
    log the call. *)
Definition call_function (f : pyfunc) (args : list value) : M value :=
  fun w => let (h, r) := __code__ f args (store w) in
           ({| store := h; calls := calls w ++ [Called f args] |}, r).

(** [k in obj.__dict__] *)
Definition contains (obj : ref) (k : string) : M bool :=
  fun w => (w, inr (bool_decide (is_Some (slot w obj k)))).

(** [obj.__dict__[k]] *)
Definition getitem (obj : ref) (k : string) : M value :=
  fun w => match slot w obj k with
           | Some v => (w, inr v)
           | None => (w, inl (KeyError k))
           end.

(** [obj.__dict__[k] = v] *)
Definition setitem (obj : ref) (k : string) (v : value) : M unit :=
  fun w => ({| store := <[obj := <[k := v]> (obj_dict (store w) obj)]> (store w);
               calls := calls w |}, inr tt).

(** [del obj.__dict__[k]] *)
Definition delitem (obj : ref) (k : string) : M unit :=
  fun w => match slot w obj k with
           | Some _ =>
               ({| store := <[obj := delete k (obj_dict (store w) obj)]> (store w);
                   calls := calls w |}, inr tt)
           | None => (w, inl (KeyError k))
           end.

(** [f.__name__] where [f] may be [None]. *)
Definition attr_name (f : option pyfunc) : M string :=
  match f with
  | Some g => ret (__name__ g)
  | None => raise NoneType_has_no_name
  end.

(** ** The descriptor *)

Record cached_property := Build_cached_property {
  fget : option pyfunc;
  fset : option pyfunc;
  fdel : option pyfunc;
  __doc__ : option string
}.

(** What [__get__] hands back: the descriptor itself, or an attribute value. *)
Inductive get_result :=
| Descriptor (self : cached_property)
| Attr (v : value).

Definition __init__ (g s d : option pyfunc) (doc : option string)
  : cached_property :=
  {| fget := g; fset := s; fdel := d;
     __doc__ := match doc, g with
                | None, Some f => func_doc f
                | _, _ => doc
                end |}.

Definition __get__ (self : cached_property) (obj : option ref) : M get_result :=
  match obj with
  | None => ret (Descriptor self)
  | Some o =>
      match fget self with
      | None => raise (AttributeError "unreadable attribute")
      | Some f =>
          cached <- contains o (__name__ f) ;;
          if (cached : bool) then
            v <- getitem o (__name__ f) ;;
            ret (Attr v)
          else
            v <- call_function f [VObj o] ;;
            setitem o (__name__ f) v ;;;
            ret (Attr v)
      end
  end.

Definition __set__ (self : cached_property) (obj : ref) (v : value) : M unit :=
  match fset self with
  | None => raise (AttributeError "can't set attribute")
  | Some s =>
      call_function s [VObj obj; v] ;;;
      k <- attr_name (fget self) ;;
      cached <- contains obj k ;;
      if (cached : bool) then delitem obj k else ret tt
  end.

Definition __delete__ (self : cached_property) (obj : ref) : M unit :=
  match fdel self with
  | None => raise (AttributeError "can't delete attribute")
  | Some d =>
      call_function d [VObj obj] ;;;
      k <- attr_name (fget self) ;;
      cached <- contains obj k ;;
      if (cached : bool) then delitem obj k else ret tt
  end.

Definition getter (self : cached_property) (g : option pyfunc) : cached_property :=
  __init__ g (fset self) (fdel self) (__doc__ self).

Definition setter (self : cached_property) (s : option pyfunc) : cached_property :=
  __init__ (fget self) s (fdel self) (__doc__ self).

Definition deleter (self : cached_property) (d : option pyfunc) : cached_property :=
  __init__ (fget self) (fset self) d (__doc__ self).

(** ** Derived notions used in the statements *)

(** [n] consecutive reads of the attribute on [obj], results in order. *)
Fixpoint reads (self : cached_property) (obj : ref) (n : nat)
  : M (list get_result) :=
  match n with
  | 0 => ret []
  | S n' =>
      r <- __get__ self (Some obj) ;;
      rs <- reads self obj n' ;;
      ret (r :: rs)
  end.

(** The store with the key [k] removed from [obj.__dict__] when present. *)
Definition invalidated (h : gmap ref (gmap string value)) (obj : ref) (k : string)
  : gmap ref (gmap string value) :=
  match obj_dict h obj !! k with
  | Some _ => <[obj := delete k (obj_dict h obj)]> h
  | None => h
  end.

(** The store with [v] cached under [k] in [obj.__dict__]. *)
Definition cached_at (h : gmap ref (gmap string value)) (obj : ref) (k : string)
  (v : value) : gmap ref (gmap string value) :=
  <[obj := <[k := v]> (obj_dict h obj)]> h.

(** The two states of a slot. *)
Inductive slot_state := Empty | Holding (v : value).

Definition state_of (o : option value) : slot_state :=
  match o with
  | None => Empty
  | Some v => Holding v
  end.

(** The exceptions an operation may signal on its own account. *)
Definition signalled (e : exception) : bool :=
  match e with
  | AttributeError msg =>
      bool_decide (msg = "unreadable attribute")
      || bool_decide (msg = "can't set attribute")
      || bool_decide (msg = "can't delete attribute")
  | _ => false
  end.

(** ** The demonstration class of the source

    [class Test] keeps a backing field [_p], read by the getter [p] and
    assigned by the setter [p]. *)

Definition no_attribute (a : string) : exception :=
  AttributeError ("'Test' object has no attribute '" ++ a ++ "'")%string.

Definition Test_p_get : pyfunc :=
  {| __name__ := "p"; func_doc := None;
     __code__ := fun args h =>
       match args with
       | [VObj o] =>
           match obj_dict h o !! "_p" with
           | Some v => (h, inr v)
           | None => (h, inl (no_attribute "_p"))
           end
       | _ => (h, inl (Raised "TypeError" "p() takes 1 positional argument"))
       end |}.

Definition Test_p_set : pyfunc :=
  {| __name__ := "p"; func_doc := None;
     __code__ := fun args h =>
       match args with
       | [VObj o; v] => (<[o := <["_p" := v]> (obj_dict h o)]> h, inr VNone)
       | _ => (h, inl (Raised "TypeError" "p() takes 2 positional arguments"))
       end |}.

(** A deleter that removes the backing field; the source's demonstration
    has none, this one serves the delete path. *)
Definition Test_p_del : pyfunc :=
  {| __name__ := "p"; func_doc := None;
     __code__ := fun args h =>
       match args with
       | [VObj o] => (<[o := delete "_p" (obj_dict h o)]> h, inr VNone)
       | _ => (h, inl (Raised "TypeError" "p() takes 1 positional argument"))
       end |}.

(** [@cached_property def p] followed by [@p.setter def p]. *)
Definition Test_p : cached_property :=
  setter (__init__ (Some Test_p_get) None None None) (Some Test_p_set).

(** [t = Test()]: object 0 with [_p = 10], nothing called yet. *)
Definition t : ref := 0.
Definition fresh_Test : world :=
  {| store := {[ t := {[ "_p" := VInt 10 ]} ]}; calls := [] |}.

(** [t] after one read of [t.p]: the slot ["p"] holds 10. *)
Definition read_Test : world :=
  {| store := {[ t := <["p" := VInt 10]> {[ "_p" := VInt 10 ]} ]};
     calls := [Called Test_p_get [VObj t]] |}.

(** [t] after [t.p = 20] on top of that read: the backing field is 20 and
    the slot is gone. *)
Definition written_Test : world :=
  {| store := {[ t := {[ "_p" := VInt 20 ]} ]};
     calls := [Called Test_p_get [VObj t]; Called Test_p_set [VObj t; VInt 20]] |}.

(** [t] after [del t.p] on top of that read. *)
Definition deleted_Test : world :=
  {| store := {[ t := ∅ ]};
     calls := [Called Test_p_get [VObj t]; Called Test_p_del [VObj t]] |}.

(** The demonstration's statements, run in order; the four printed values. *)
Definition demo : M (list get_result) :=
  __set__ Test_p t (VInt 10) ;;;
  a <- __get__ Test_p (Some t) ;;
  b <- __get__ Test_p (Some t) ;;
  __set__ Test_p t (VInt 20) ;;;
  c <- __get__ Test_p (Some t) ;;
  d <- __get__ Test_p (Some t) ;;
  ret [a; b; c; d].

(** Further descriptors over the same functions. *)
Definition Test_p_del_too : cached_property := deleter Test_p (Some Test_p_del).
Definition read_only : cached_property := __init__ (Some Test_p_get) None None None.
Definition write_only : cached_property := __init__ None (Some Test_p_set) None None.
Definition delete_only : cached_property := __init__ None None (Some Test_p_del) None.

(** A getter with a docstring, and an unrelated getter that happens to
    carry the same [__name__] as [Test_p_get]. *)
Definition documented_get : pyfunc :=
  {| __name__ := "q"; func_doc := Some "The q of a Test.";
     __code__ := fun _ h => (h, inr (VInt 1)) |}.

Definition mixin_p_get : pyfunc :=
  {| __name__ := "p"; func_doc := None;
     __code__ := fun _ h => (h, inr (VStr "mixin")) |}.

Definition mixin_p_set : pyfunc :=
  {| __name__ := "p"; func_doc := None;
     __code__ := fun _ h => (h, inr VNone) |}.

Definition Mixin_p : cached_property :=
  __init__ (Some mixin_p_get) (Some mixin_p_set) (Some mixin_p_set) None.

(** ** The class of the docstring

    The docstring's [Test] has the same getter and setter as the
    demonstration, and a method [inc_p] in two versions: one that assigns
    the backing field behind the property's back ([self._p += 1]), and one
    that goes through the property ([self.p += 1]). *)

(** [obj.a] for a plain instance attribute. *)
Definition getattr_field (obj : ref) (a : string) : M value :=
  fun w => match slot w obj a with
           | Some v => (w, inr v)
           | None => (w, inl (no_attribute a))
           end.

(** [v + 1] *)
Definition add_one (v : value) : M value :=
  match v with
  | VInt z => ret (VInt (z + 1))
  | _ => raise (Raised "TypeError" "unsupported operand type(s) for +=")
  end.

(** [self._p += 1] *)
Definition inc_p_direct (obj : ref) : M unit :=
  v <- getattr_field obj "_p" ;;
  v' <- add_one v ;;
  setitem obj "_p" v'.

(** [self.p += 1], with [p] the descriptor [self]. *)
Definition inc_p_property (self : cached_property) (obj : ref) : M unit :=
  r <- __get__ self (Some obj) ;;
  match r with
  | Attr v => v' <- add_one v ;; __set__ self obj v'
  | Descriptor _ =>
      raise (Raised "TypeError" "unsupported operand type(s) for +=")
  end.

(** Read [p], call [inc_p], read [p] again: with the [inc_p] that bypasses
    the property, and with the one that goes through it. *)
Definition read_inc_read_direct (obj : ref) : M (get_result * get_result) :=
  a <- __get__ Test_p (Some obj) ;;
  inc_p_direct obj ;;;
  b <- __get__ Test_p (Some obj) ;;
  ret (a, b).

Definition read_inc_read_property (obj : ref) : M (get_result * get_result) :=
  a <- __get__ Test_p (Some obj) ;;
  inc_p_property Test_p obj ;;;
  b <- __get__ Test_p (Some obj) ;;
  ret (a, b).

(** The getter the docstring warns about: [self._p += 1; return self._p]. *)
Definition counting_p_get : pyfunc :=
  {| __name__ := "p"; func_doc := None;
     __code__ := fun args h =>
       match args with
       | [VObj o] =>
           match obj_dict h o !! "_p" with
           | Some (VInt z) =>
               (<[o := <["_p" := VInt (z + 1)]> (obj_dict h o)]> h,
                inr (VInt (z + 1)))
           | Some _ =>
               (h, inl (Raised "TypeError" "unsupported operand type(s) for +="))
           | None => (h, inl (no_attribute "_p"))
           end
       | _ => (h, inl (Raised "TypeError" "p() takes 1 positional argument"))
       end |}.

Definition Counting_p : cached_property :=
  __init__ (Some counting_p_get) None None None.

(** ** Further notions and inputs for the properties below *)

(** One invalidation cycle: a write followed by [n] reads. *)
Definition write_then_reads (self : cached_property) (obj : ref) (x : value)
  (n : nat) : M (list get_result) :=
  __set__ self obj x ;;; reads self obj n.

(** The demonstration with arbitrary values and arbitrarily many reads. *)
Definition demo_with (obj : ref) (a b : value) (n m : nat)
  : M (list get_result * list get_result) :=
  xs <- write_then_reads Test_p obj a n ;;
  ys <- write_then_reads Test_p obj b m ;;
  ret (xs, ys).

(** A function is confined when, called on an object, it leaves the
    [__dict__] of every other object as it was. *)
Definition confined (f : pyfunc) : Prop :=
  ∀ (o : ref) (rest : list value) (h : gmap ref (gmap string value)) (o' : ref),
    o' ≠ o → (__code__ f (VObj o :: rest) h).1 !! o' = h !! o'.

Definition confined_opt (f : option pyfunc) : Prop :=
  match f with
  | Some g => confined g
  | None => True
  end.

(** A setter that validates: negative integers are rejected before the
    backing field is touched. *)
Definition checked_p_set : pyfunc :=
  {| __name__ := "p"; func_doc := None;
     __code__ := fun args h =>
       match args with
       | [VObj o; VInt z] =>
           if (z <? 0)%Z then (h, inl (Raised "ValueError" "p must not be negative"))
           else (<[o := <["_p" := VInt z]> (obj_dict h o)]> h, inr VNone)
       | [VObj o; _] => (h, inl (Raised "TypeError" "p must be an int"))
       | _ => (h, inl (Raised "TypeError" "p() takes 2 positional arguments"))
       end |}.

(** A deleter that always refuses. *)
Definition refusing_p_del : pyfunc :=
  {| __name__ := "p"; func_doc := None;
     __code__ := fun _ h => (h, inl (Raised "TypeError" "p cannot be deleted")) |}.

Definition Checked_p : cached_property :=
  __init__ (Some Test_p_get) (Some checked_p_set) (Some refusing_p_del) None.

(** A second property of the same class, under another name. *)
Definition Test_q : cached_property :=
  __init__ (Some documented_get) (Some mixin_p_set) (Some mixin_p_set) None.

(** An instance whose backing field has not been assigned. *)
Definition bare_Test : world := {| store := {[ t := ∅ ]}; calls := [] |}.

(** Two instances; the first has been read, the second has a cached value
    of its own. *)
Definition u : ref := 1.
Definition two_Tests : world :=
  {| store := {[ t := <["p" := VInt 10]> {[ "_p" := VInt 10 ]};
                 u := <["p" := VInt 7]> {[ "_p" := VInt 7 ]} ]};
     calls := [] |}.

Example demo_prints :
  snd (demo fresh_Test) = inr [Attr (VInt 10); Attr (VInt 10); Attr (VInt 20); Attr (VInt 20)].
Proof. vm_compute. reflexivity. Qed.

(** ** The store *)

Section store.
Implicit Types (h : gmap ref (gmap string value)) (o : ref) (k : string).

Lemma obj_dict_insert_eq h o (d : gmap string value) :
  obj_dict (<[o := d]> h) o = d.
Proof. unfold obj_dict. by rewrite lookup_insert_eq. Qed.

Lemma obj_dict_insert_ne h o o' (d : gmap string value) :
  o ≠ o' → obj_dict (<[o := d]> h) o' = obj_dict h o'.
Proof. intros Hne. unfold obj_dict. by rewrite lookup_insert_ne. Qed.

Lemma invalidated_slot h o k : obj_dict (invalidated h o k) o !! k = None.
Proof.
  unfold invalidated. destruct (obj_dict h o !! k) eqn:E; [|done].
  rewrite obj_dict_insert_eq. apply lookup_delete_eq.
Qed.

Lemma invalidated_other_key h o k k' :
  k ≠ k' → obj_dict (invalidated h o k) o !! k' = obj_dict h o !! k'.
Proof.
  intros Hne. unfold invalidated. destruct (obj_dict h o !! k); [|done].
  rewrite obj_dict_insert_eq. by apply lookup_delete_ne.
Qed.

Lemma invalidated_other_obj h o o' k :
  o ≠ o' → invalidated h o k !! o' = h !! o'.
Proof.
  intros Hne. unfold invalidated. destruct (obj_dict h o !! k); [|done].
  by apply lookup_insert_ne.
Qed.

Lemma invalidated_empty h o k :
  obj_dict h o !! k = None → invalidated h o k = h.
Proof. intros E. unfold invalidated. by rewrite E. Qed.

Lemma cached_at_slot h o k v : obj_dict (cached_at h o k v) o !! k = Some v.
Proof. unfold cached_at. rewrite obj_dict_insert_eq. apply lookup_insert_eq. Qed.

Lemma cached_at_other_key h o k k' v :
  k ≠ k' → obj_dict (cached_at h o k v) o !! k' = obj_dict h o !! k'.
Proof.
  intros Hne. unfold cached_at. rewrite obj_dict_insert_eq.
  by apply lookup_insert_ne.
Qed.

Lemma cached_at_other_obj h o o' k v :
  o ≠ o' → cached_at h o k v !! o' = h !! o'.
Proof. intros Hne. unfold cached_at. by apply lookup_insert_ne. Qed.

End store.

(** ** One equation per path through each method *)

Section paths.
Variables (self : cached_property) (o : ref) (w : world).

Lemma get_class : __get__ self None w = (w, inr (Descriptor self)).
Proof. reflexivity. Qed.

Lemma get_unreadable :
  fget self = None → __get__ self (Some o) w = (w, inl Unreadable).
Proof. intros E. unfold __get__. by rewrite E. Qed.

Lemma get_hit f v :
  fget self = Some f → slot w o (__name__ f) = Some v →
  __get__ self (Some o) w = (w, inr (Attr v)).
Proof.
  intros E Hs. unfold __get__, bind, contains, getitem, ret.
  rewrite E, Hs. rewrite bool_decide_eq_true_2 by eauto. by rewrite Hs.
Qed.

Lemma get_miss f :
  fget self = Some f → slot w o (__name__ f) = None →
  __get__ self (Some o) w =
    match __code__ f [VObj o] (store w) with
    | (h, inl e) =>
        ({| store := h; calls := calls w ++ [Called f [VObj o]] |}, inl e)
    | (h, inr v) =>
        ({| store := cached_at h o (__name__ f) v;
            calls := calls w ++ [Called f [VObj o]] |}, inr (Attr v))
    end.
Proof.
  intros E Hs. unfold __get__, bind, contains, call_function, setitem, ret.
  rewrite E, Hs. rewrite bool_decide_eq_false_2 by (intros [? ?]; done).
  destruct (__code__ f [VObj o] (store w)) as [h [e|v]]; reflexivity.
Qed.

(** After the user function has returned, [__set__] and [__delete__] run
    the same three lines. *)
Lemma clear_bound f w' :
  fget self = Some f →
  (k <- attr_name (fget self) ;;
   cached <- contains o k ;;
   if (cached : bool) then delitem o k else ret tt) w'
  = ({| store := invalidated (store w') o (__name__ f); calls := calls w' |},
     inr tt).
Proof.
  intros E. rewrite E. unfold bind, attr_name, contains, delitem, ret, invalidated, slot.
  destruct w' as [h c]; simpl.
  destruct (obj_dict h o !! __name__ f) eqn:Hs.
  - rewrite bool_decide_eq_true_2 by eauto. simpl. by rewrite Hs.
  - rewrite bool_decide_eq_false_2 by (intros [? ?]; done). reflexivity.
Qed.

Lemma clear_unbound w' :
  fget self = None →
  (k <- attr_name (fget self) ;;
   cached <- contains o k ;;
   if (cached : bool) then delitem o k else ret tt) w'
  = (w', inl NoneType_has_no_name).
Proof. intros E. rewrite E. reflexivity. Qed.

Lemma set_unwritable x :
  fset self = None → __set__ self o x w = (w, inl Unwritable).
Proof. intros E. unfold __set__. by rewrite E. Qed.

Lemma delete_undeletable :
  fdel self = None → __delete__ self o w = (w, inl Undeletable).
Proof. intros E. unfold __delete__. by rewrite E. Qed.

Lemma set_raises s x h e :
  fset self = Some s → __code__ s [VObj o; x] (store w) = (h, inl e) →
  __set__ self o x w =
    ({| store := h; calls := calls w ++ [Called s [VObj o; x]] |}, inl e).
Proof.
  intros E Hc. unfold __set__. rewrite E.
  unfold bind at 1. unfold call_function. by rewrite Hc.
Qed.

Lemma set_returns s f x h r :
  fset self = Some s → fget self = Some f →
  __code__ s [VObj o; x] (store w) = (h, inr r) →
  __set__ self o x w =
    ({| store := invalidated h o (__name__ f);
        calls := calls w ++ [Called s [VObj o; x]] |}, inr tt).
Proof.
  intros E Eg Hc. unfold __set__. rewrite E.
  unfold bind at 1. unfold call_function. rewrite Hc.
  by rewrite (clear_bound f).
Qed.

Lemma set_returns_unbound s x h r :
  fset self = Some s → fget self = None →
  __code__ s [VObj o; x] (store w) = (h, inr r) →
  __set__ self o x w =
    ({| store := h; calls := calls w ++ [Called s [VObj o; x]] |},
     inl NoneType_has_no_name).
Proof.
  intros E Eg Hc. unfold __set__. rewrite E.
  unfold bind at 1. unfold call_function. rewrite Hc.
  by rewrite clear_unbound.
Qed.

Lemma delete_raises d h e :
  fdel self = Some d → __code__ d [VObj o] (store w) = (h, inl e) →
  __delete__ self o w =
    ({| store := h; calls := calls w ++ [Called d [VObj o]] |}, inl e).
Proof.
  intros E Hc. unfold __delete__. rewrite E.
  unfold bind at 1. unfold call_function. by rewrite Hc.
Qed.

Lemma delete_returns d f h r :
  fdel self = Some d → fget self = Some f →
  __code__ d [VObj o] (store w) = (h, inr r) →
  __delete__ self o w =
    ({| store := invalidated h o (__name__ f);
        calls := calls w ++ [Called d [VObj o]] |}, inr tt).
Proof.
  intros E Eg Hc. unfold __delete__. rewrite E.
  unfold bind at 1. unfold call_function. rewrite Hc.
  by rewrite (clear_bound f).
Qed.

Lemma delete_returns_unbound d h r :
  fdel self = Some d → fget self = None →
  __code__ d [VObj o] (store w) = (h, inr r) →
  __delete__ self o w =
    ({| store := h; calls := calls w ++ [Called d [VObj o]] |},
     inl NoneType_has_no_name).
Proof.
  intros E Eg Hc. unfold __delete__. rewrite E.
  unfold bind at 1. unfold call_function. rewrite Hc.
  by rewrite clear_unbound.
Qed.

End paths.

(** ** Reading *)

Section reading.
Variables (self : cached_property) (f : pyfunc) (o : ref).
Hypothesis Hget : fget self = Some f.

(** Once the slot holds a value, any number of reads returns it and
    touches neither the store nor the log. *)
Lemma reads_hit w c n :
  slot w o (__name__ f) = Some c →
  reads self o n w = (w, inr (replicate n (Attr c))).
Proof.
  intros Hs. induction n as [|n IH]; [reflexivity|].
  cbn [reads replicate]. unfold bind at 1. rewrite (get_hit self o w f c Hget Hs).
  unfold bind at 1. by rewrite IH.
Qed.

(** From an empty slot, the first read runs the getter and fills the slot;
    the remaining reads are hits. *)
Lemma reads_miss w h v n :
  slot w o (__name__ f) = None →
  __code__ f [VObj o] (store w) = (h, inr v) →
  reads self o (S n) w =
    ({| store := cached_at h o (__name__ f) v;
        calls := calls w ++ [Called f [VObj o]] |},
     inr (replicate (S n) (Attr v))).
Proof.
  intros Hs Hc. cbn [reads replicate]. unfold bind at 1.
  rewrite (get_miss self o w f Hget Hs), Hc.
  unfold bind at 1. rewrite (reads_hit _ v n); [reflexivity|].
  apply cached_at_slot.
Qed.

End reading.

(** C1.  On an instance, with a getter bound: when the slot under the
    getter's name holds a value, a read returns that value and leaves the
    store and the call log as they were, so the getter is not invoked; when
    the slot is empty, a read invokes the getter exactly once (the log grows
    by that single call), stores what it returned in the slot and returns
    it.  Consequently a run of reads that starts from an empty slot, with no
    write or delete in between, logs exactly one call of the getter and every
    read returns the same value; a run that starts from a held value logs
    none and every read returns the held value. *)
Theorem read_computes_once_per_cycle
  (self : cached_property) (f : pyfunc) (o : ref) (w : world) (n : nat) :
  fget self = Some f →
  (∀ c, slot w o (__name__ f) = Some c →
        __get__ self (Some o) w = (w, inr (Attr c))
        ∧ reads self o n w = (w, inr (replicate n (Attr c))))
  ∧
  (∀ h v, slot w o (__name__ f) = None →
          __code__ f [VObj o] (store w) = (h, inr v) →
          let w' := {| store := cached_at h o (__name__ f) v;
                       calls := calls w ++ [Called f [VObj o]] |} in
          __get__ self (Some o) w = (w', inr (Attr v))
          ∧ slot w' o (__name__ f) = Some v
          ∧ reads self o (S n) w = (w', inr (replicate (S n) (Attr v)))).
Proof.
  intros Hget. split.
  - intros c Hs. split; [by apply (get_hit self o w f) | by apply (reads_hit self f)].
  - intros h v Hs Hc w'. split; [|split].
    + by rewrite (get_miss self o w f Hget Hs), Hc.
    + apply cached_at_slot.
    + by apply (reads_miss self f).
Qed.

Lemma read_computes_once_per_cycle_witness :
  fget Test_p = Some Test_p_get
  ∧ (slot read_Test t "p" = Some (VInt 10)
     ∧ __get__ Test_p (Some t) read_Test = (read_Test, inr (Attr (VInt 10)))
     ∧ reads Test_p t 3 read_Test = (read_Test, inr (replicate 3 (Attr (VInt 10)))))
  ∧ (slot fresh_Test t "p" = None
     ∧ __code__ Test_p_get [VObj t] (store fresh_Test)
       = (store fresh_Test, inr (VInt 10))
     ∧ calls (fst (reads Test_p t 3 fresh_Test)) = [Called Test_p_get [VObj t]]
     ∧ snd (reads Test_p t 3 fresh_Test) = inr (replicate 3 (Attr (VInt 10)))).
Proof.
  split; [reflexivity|]. split.
  - split; [reflexivity|].
    exact (proj1 (read_computes_once_per_cycle Test_p Test_p_get t read_Test 3
                    eq_refl) (VInt 10) eq_refl).
  - split; [reflexivity|]. split; [reflexivity|].
    pose proof (proj2 (read_computes_once_per_cycle Test_p Test_p_get t
                         fresh_Test 2 eq_refl)
                  (store fresh_Test) (VInt 10) eq_refl eq_refl) as (_ & _ & H).
    rewrite H. split; reflexivity.
Defined.

(** ** Invalidation *)

Section after_invalidation.
Variables (self : cached_property) (f : pyfunc) (o : ref) (w : world).
Hypothesis Hget : fget self = Some f.
Hypothesis Hempty : slot w o (__name__ f) = None.

Lemma get_miss_calls :
  calls (fst (__get__ self (Some o) w)) = calls w ++ [Called f [VObj o]].
Proof.
  rewrite (get_miss self o w f Hget Hempty).
  by destruct (__code__ f [VObj o] (store w)) as [h [e|v]].
Qed.

Lemma get_miss_returns h v :
  __code__ f [VObj o] (store w) = (h, inr v) →
  __get__ self (Some o) w =
    ({| store := cached_at h o (__name__ f) v;
        calls := calls w ++ [Called f [VObj o]] |}, inr (Attr v)).
Proof. intros Hc. by rewrite (get_miss self o w f Hget Hempty), Hc. Qed.

End after_invalidation.

(** C2.  With a setter and a getter bound and the setter returning
    normally, a write logs exactly one call of the setter and leaves the slot
    under the getter's name empty, whatever the slot held before; nothing
    else of the store the setter left behind is touched, and the written
    value is not put into the slot.  The read that follows therefore calls
    the getter again, on the store the setter established, and returns what
    the getter computes from it. *)
Theorem write_invalidates
  (self : cached_property) (s f : pyfunc) (o : ref) (x : value) (w : world)
  (h : gmap ref (gmap string value)) (r : value) :
  fset self = Some s → fget self = Some f →
  __code__ s [VObj o; x] (store w) = (h, inr r) →
  let w1 := {| store := invalidated h o (__name__ f);
               calls := calls w ++ [Called s [VObj o; x]] |} in
  __set__ self o x w = (w1, inr tt)
  ∧ slot w1 o (__name__ f) = None
  ∧ (∀ k, k ≠ __name__ f → slot w1 o k = obj_dict h o !! k)
  ∧ (∀ o', o' ≠ o → store w1 !! o' = h !! o')
  ∧ calls (fst (__get__ self (Some o) w1)) = calls w1 ++ [Called f [VObj o]]
  ∧ (∀ h2 v, __code__ f [VObj o] (store w1) = (h2, inr v) →
             __get__ self (Some o) w1 =
               ({| store := cached_at h2 o (__name__ f) v;
                   calls := calls w1 ++ [Called f [VObj o]] |}, inr (Attr v))).
Proof.
  intros Hs Hg Hc w1.
  assert (Hslot : slot w1 o (__name__ f) = None) by apply invalidated_slot.
  repeat split.
  - by apply (set_returns self o w s f x h r).
  - exact Hslot.
  - intros k Hk. by apply invalidated_other_key.
  - intros o' Ho. by apply invalidated_other_obj.
  - by apply get_miss_calls.
  - intros h2 v. by apply get_miss_returns.
Qed.

Lemma write_invalidates_witness :
  fset Test_p = Some Test_p_set
  ∧ fget Test_p = Some Test_p_get
  ∧ slot read_Test t "p" = Some (VInt 10)
  ∧ slot (fst (__set__ Test_p t (VInt 20) read_Test)) t "p" = None
  ∧ slot (fst (__set__ Test_p t (VInt 20) read_Test)) t "_p" = Some (VInt 20)
  ∧ calls (fst (__set__ Test_p t (VInt 20) read_Test))
    = calls read_Test ++ [Called Test_p_set [VObj t; VInt 20]].
Proof.
  split; [reflexivity|]. split; [reflexivity|]. split; [reflexivity|].
  pose proof (write_invalidates Test_p Test_p_set Test_p_get t (VInt 20)
                read_Test
                (fst (__code__ Test_p_set [VObj t; VInt 20] (store read_Test)))
                VNone eq_refl eq_refl eq_refl) as (Hset & Hslot & Hkeep & _).
  rewrite Hset. split; [exact Hslot|]. split; [|reflexivity].
  rewrite Hkeep; [reflexivity | discriminate].
Defined.

(** C3.  With a deleter and a getter bound and the deleter returning
    normally, a delete logs exactly one call of the deleter and leaves the
    slot under the getter's name empty; the read that follows calls the
    getter again. *)
Theorem delete_invalidates
  (self : cached_property) (d f : pyfunc) (o : ref) (w : world)
  (h : gmap ref (gmap string value)) (r : value) :
  fdel self = Some d → fget self = Some f →
  __code__ d [VObj o] (store w) = (h, inr r) →
  let w1 := {| store := invalidated h o (__name__ f);
               calls := calls w ++ [Called d [VObj o]] |} in
  __delete__ self o w = (w1, inr tt)
  ∧ slot w1 o (__name__ f) = None
  ∧ (∀ k, k ≠ __name__ f → slot w1 o k = obj_dict h o !! k)
  ∧ (∀ o', o' ≠ o → store w1 !! o' = h !! o')
  ∧ calls (fst (__get__ self (Some o) w1)) = calls w1 ++ [Called f [VObj o]]
  ∧ (∀ h2 v, __code__ f [VObj o] (store w1) = (h2, inr v) →
             __get__ self (Some o) w1 =
               ({| store := cached_at h2 o (__name__ f) v;
                   calls := calls w1 ++ [Called f [VObj o]] |}, inr (Attr v))).
Proof.
  intros Hd Hg Hc w1.
  assert (Hslot : slot w1 o (__name__ f) = None) by apply invalidated_slot.
  repeat split.
  - by apply (delete_returns self o w d f h r).
  - exact Hslot.
  - intros k Hk. by apply invalidated_other_key.
  - intros o' Ho. by apply invalidated_other_obj.
  - by apply get_miss_calls.
  - intros h2 v. by apply get_miss_returns.
Qed.

Lemma delete_invalidates_witness :
  fdel Test_p_del_too = Some Test_p_del
  ∧ fget Test_p_del_too = Some Test_p_get
  ∧ slot read_Test t "p" = Some (VInt 10)
  ∧ slot (fst (__delete__ Test_p_del_too t read_Test)) t "p" = None
  ∧ calls (fst (__delete__ Test_p_del_too t read_Test))
    = calls read_Test ++ [Called Test_p_del [VObj t]]
  ∧ calls (fst (__get__ Test_p_del_too (Some t)
                  (fst (__delete__ Test_p_del_too t read_Test))))
    = calls read_Test ++ [Called Test_p_del [VObj t]]
        ++ [Called Test_p_get [VObj t]].
Proof.
  split; [reflexivity|]. split; [reflexivity|]. split; [reflexivity|].
  pose proof (delete_invalidates Test_p_del_too Test_p_del Test_p_get t
                read_Test
                (fst (__code__ Test_p_del [VObj t] (store read_Test)))
                VNone eq_refl eq_refl eq_refl) as (Hdel & Hslot & _ & _ & Hagain & _).
  rewrite Hdel. cbn [fst]. split; [exact Hslot|]. split; [reflexivity|].
  rewrite Hagain. cbn [calls]. by rewrite <- app_assoc.
Defined.

(** ** Unbound functions *)

(** C4.  A read on an instance without a getter fails with the
    unreadable-attribute error, a write without a setter with the
    can't-set error and a delete without a deleter with the can't-delete
    error; each failure hands back the world it was given, so no user
    function has been called and every slot is as it was. *)
Theorem unbound_operation_is_refused
  (g s d : option pyfunc) (doc : option string) (o : ref) (x : value) (w : world) :
  __get__ (__init__ None s d doc) (Some o) w = (w, inl Unreadable)
  ∧ __set__ (__init__ g None d doc) o x w = (w, inl Unwritable)
  ∧ __delete__ (__init__ g s None doc) o w = (w, inl Undeletable).
Proof.
  split; [|split].
  - by apply get_unreadable.
  - by apply set_unwritable.
  - by apply delete_undeletable.
Qed.

(** ** Failure modes *)

Section failures.
Variables (self : cached_property) (o : ref) (w w' : world) (e : exception).

(** A failing read is the refusal, or the getter's own exception. *)
Lemma get_failure :
  __get__ self (Some o) w = (w', inl e) →
  (fget self = None ∧ e = Unreadable ∧ w' = w)
  ∨ (∃ f h, fget self = Some f ∧ __code__ f [VObj o] (store w) = (h, inl e)).
Proof.
  destruct (fget self) as [f|] eqn:Hg.
  - destruct (slot w o (__name__ f)) as [c|] eqn:Hs.
    + rewrite (get_hit self o w f c Hg Hs). discriminate.
    + rewrite (get_miss self o w f Hg Hs).
      destruct (__code__ f [VObj o] (store w)) as [h [e'|v]] eqn:Hc;
        intros [= <- <-]. right. by exists f, h.
  - rewrite (get_unreadable self o w Hg). intros [= <- <-]. by left.
Qed.

(** A failing write is the refusal, the setter's own exception, or, when
    no getter is bound, the failed look-up of the getter's name. *)
Lemma set_failure x :
  __set__ self o x w = (w', inl e) →
  (fset self = None ∧ e = Unwritable ∧ w' = w)
  ∨ (∃ s h, fset self = Some s ∧ __code__ s [VObj o; x] (store w) = (h, inl e))
  ∨ (∃ s h r, fset self = Some s ∧ fget self = None
              ∧ __code__ s [VObj o; x] (store w) = (h, inr r)
              ∧ e = NoneType_has_no_name).
Proof.
  destruct (fset self) as [s|] eqn:Hs.
  - destruct (__code__ s [VObj o; x] (store w)) as [h [e'|r]] eqn:Hc.
    + rewrite (set_raises self o w s x h e' Hs Hc). intros [= <- <-].
      right; left. by exists s, h.
    + destruct (fget self) as [f|] eqn:Hg.
      * rewrite (set_returns self o w s f x h r Hs Hg Hc). discriminate.
      * rewrite (set_returns_unbound self o w s x h r Hs Hg Hc).
        intros [= <- <-]. right; right. by exists s, h, r.
  - rewrite (set_unwritable self o w x Hs). intros [= <- <-]. by left.
Qed.

Lemma delete_failure :
  __delete__ self o w = (w', inl e) →
  (fdel self = None ∧ e = Undeletable ∧ w' = w)
  ∨ (∃ d h, fdel self = Some d ∧ __code__ d [VObj o] (store w) = (h, inl e))
  ∨ (∃ d h r, fdel self = Some d ∧ fget self = None
              ∧ __code__ d [VObj o] (store w) = (h, inr r)
              ∧ e = NoneType_has_no_name).
Proof.
  destruct (fdel self) as [d|] eqn:Hd.
  - destruct (__code__ d [VObj o] (store w)) as [h [e'|r]] eqn:Hc.
    + rewrite (delete_raises self o w d h e' Hd Hc). intros [= <- <-].
      right; left. by exists d, h.
    + destruct (fget self) as [f|] eqn:Hg.
      * rewrite (delete_returns self o w d f h r Hd Hg Hc). discriminate.
      * rewrite (delete_returns_unbound self o w d h r Hd Hg Hc).
        intros [= <- <-]. right; right. by exists d, h, r.
  - rewrite (delete_undeletable self o w Hd). intros [= <- <-]. by left.
Qed.

End failures.

(** C5 (what the code does at the input that breaks it).  A descriptor
    built with a setter and no getter is written on the demonstration
    object: the setter runs and assigns the backing field, and the write
    then fails with the attribute error of [None.__name__], which is none
    of the three signalled conditions; the delete path of a descriptor
    with a deleter and no getter does the same. *)
Theorem write_without_getter_fails_unsignalled :
  __set__ write_only t (VInt 20) fresh_Test
  = ({| store := {[ t := {[ "_p" := VInt 20 ]} ]};
        calls := [Called Test_p_set [VObj t; VInt 20]] |},
     inl NoneType_has_no_name)
  ∧ __delete__ delete_only t fresh_Test
    = ({| store := {[ t := ∅ ]}; calls := [Called Test_p_del [VObj t]] |},
       inl NoneType_has_no_name)
  ∧ signalled NoneType_has_no_name = false
  ∧ signalled Unreadable = true
  ∧ signalled Unwritable = true
  ∧ signalled Undeletable = true.
Proof.
  split; [|split; [|by vm_compute]].
  - apply (set_returns_unbound write_only t fresh_Test Test_p_set (VInt 20)
             _ VNone); [reflexivity | reflexivity |].
    by vm_compute.
  - apply (delete_returns_unbound delete_only t fresh_Test Test_p_del
             _ VNone); [reflexivity | reflexivity |].
    by vm_compute.
Qed.

(** ** The slot as a two-state machine *)

(** C6.  The slot holds nothing or one value, and the operations move it
    between these two states.  With a getter bound: a read on a holding slot
    succeeds, returns the held value and leaves the world as it was; a read
    on an empty slot whose getter returns succeeds and leaves the slot
    holding the returned value; a write whose setter returns, and a delete
    whose deleter returns, succeed and leave the slot empty, from either
    state.  Conversely, whenever a read succeeds on an instance the slot
    holds the value returned afterwards, and whenever a write or a delete
    succeeds the slot is empty afterwards; a slot never yields two different
    values. *)
Theorem slot_two_states
  (self : cached_property) (o : ref) (x : value) (w w' : world) :
  (∀ f, fget self = Some f →
        (∀ c, state_of (slot w o (__name__ f)) = Holding c →
              __get__ self (Some o) w = (w, inr (Attr c)))
        ∧ (∀ h v, state_of (slot w o (__name__ f)) = Empty →
                  __code__ f [VObj o] (store w) = (h, inr v) →
                  let w1 := {| store := cached_at h o (__name__ f) v;
                               calls := calls w ++ [Called f [VObj o]] |} in
                  __get__ self (Some o) w = (w1, inr (Attr v))
                  ∧ state_of (slot w1 o (__name__ f)) = Holding v)
        ∧ (∀ s h r, fset self = Some s →
                    __code__ s [VObj o; x] (store w) = (h, inr r) →
                    let w1 := {| store := invalidated h o (__name__ f);
                                 calls := calls w ++ [Called s [VObj o; x]] |} in
                    __set__ self o x w = (w1, inr tt)
                    ∧ state_of (slot w1 o (__name__ f)) = Empty)
        ∧ (∀ d h r, fdel self = Some d →
                    __code__ d [VObj o] (store w) = (h, inr r) →
                    let w1 := {| store := invalidated h o (__name__ f);
                                 calls := calls w ++ [Called d [VObj o]] |} in
                    __delete__ self o w = (w1, inr tt)
                    ∧ state_of (slot w1 o (__name__ f)) = Empty))
  ∧ (∀ r, __get__ self (Some o) w = (w', inr r) →
          ∃ f v, fget self = Some f ∧ r = Attr v
                 ∧ state_of (slot w' o (__name__ f)) = Holding v
                 ∧ (∀ c, state_of (slot w o (__name__ f)) = Holding c →
                         w' = w ∧ v = c))
  ∧ (∀ u, __set__ self o x w = (w', inr u) →
          ∃ f, fget self = Some f ∧ state_of (slot w' o (__name__ f)) = Empty)
  ∧ (∀ u, __delete__ self o w = (w', inr u) →
          ∃ f, fget self = Some f ∧ state_of (slot w' o (__name__ f)) = Empty)
  ∧ (∀ k v1 v2, slot w' o k = Some v1 → slot w' o k = Some v2 → v1 = v2).
Proof.
  split; [|split; [|split; [|split]]].
  - intros f Hg. split; [|split; [|split]].
    + intros c Hc. apply (get_hit self o w f c Hg).
      destruct (slot w o (__name__ f)); [by injection Hc as -> | discriminate].
    + intros h v He Hc w1.
      assert (Hs : slot w o (__name__ f) = None)
        by (destruct (slot w o (__name__ f)); [discriminate | done]).
      subst w1. split; [by apply get_miss_returns|].
      unfold slot; cbn [store]. by rewrite cached_at_slot.
    + intros s h r Hs Hc w1. subst w1. split.
      * by apply (set_returns self o w s f x h r).
      * unfold slot; cbn [store]. by rewrite invalidated_slot.
    + intros d h r Hd Hc w1. subst w1. split.
      * by apply (delete_returns self o w d f h r).
      * unfold slot; cbn [store]. by rewrite invalidated_slot.
  - intros r. destruct (fget self) as [f|] eqn:Hg.
    + destruct (slot w o (__name__ f)) as [c|] eqn:Hs.
      * rewrite (get_hit self o w f c Hg Hs). intros [= <- <-].
        exists f, c. rewrite Hs. split; [done|]. split; [done|]. split; [done|].
        by intros c' [= ->].
      * rewrite (get_miss self o w f Hg Hs).
        destruct (__code__ f [VObj o] (store w)) as [h [e|v]];
          intros [= <- <-].
        exists f, v. split; [done|]. split; [done|]. split.
        -- unfold slot. cbn [store]. by rewrite cached_at_slot.
        -- by rewrite Hs.
    + rewrite (get_unreadable self o w Hg). discriminate.
  - intros u0. destruct (fset self) as [s|] eqn:Hs.
    + destruct (__code__ s [VObj o; x] (store w)) as [h [e|r]] eqn:Hc.
      * rewrite (set_raises self o w s x h e Hs Hc). discriminate.
      * destruct (fget self) as [f|] eqn:Hg.
        -- rewrite (set_returns self o w s f x h r Hs Hg Hc). intros [= <- <-].
           exists f. split; [done|]. unfold slot. cbn [store].
           by rewrite invalidated_slot.
        -- rewrite (set_returns_unbound self o w s x h r Hs Hg Hc). discriminate.
    + rewrite (set_unwritable self o w x Hs). discriminate.
  - intros u0. destruct (fdel self) as [d|] eqn:Hd.
    + destruct (__code__ d [VObj o] (store w)) as [h [e|r]] eqn:Hc.
      * rewrite (delete_raises self o w d h e Hd Hc). discriminate.
      * destruct (fget self) as [f|] eqn:Hg.
        -- rewrite (delete_returns self o w d f h r Hd Hg Hc). intros [= <- <-].
           exists f. split; [done|]. unfold slot. cbn [store].
           by rewrite invalidated_slot.
        -- rewrite (delete_returns_unbound self o w d h r Hd Hg Hc). discriminate.
    + rewrite (delete_undeletable self o w Hd). discriminate.
  - intros k v1 v2 H1 H2. congruence.
Qed.

(** Three steps of the demonstration, as equations between worlds. *)
Lemma demo_read :
  __get__ Test_p (Some t) fresh_Test = (read_Test, inr (Attr (VInt 10))).
Proof.
  rewrite (get_miss_returns Test_p Test_p_get t fresh_Test eq_refl eq_refl
             (store fresh_Test) (VInt 10) eq_refl).
  reflexivity.
Qed.

Lemma demo_write :
  __set__ Test_p t (VInt 20) read_Test = (written_Test, inr tt).
Proof.
  rewrite (set_returns Test_p t read_Test Test_p_set Test_p_get (VInt 20)
             (fst (__code__ Test_p_set [VObj t; VInt 20] (store read_Test)))
             VNone eq_refl eq_refl eq_refl).
  reflexivity.
Qed.

Lemma demo_delete :
  __delete__ Test_p_del_too t read_Test = (deleted_Test, inr tt).
Proof.
  rewrite (delete_returns Test_p_del_too t read_Test Test_p_del Test_p_get
             (fst (__code__ Test_p_del [VObj t] (store read_Test)))
             VNone eq_refl eq_refl eq_refl).
  reflexivity.
Qed.

Lemma slot_two_states_witness :
  fget Test_p = Some Test_p_get
  ∧ fget Test_p_del_too = Some Test_p_get
  ∧ state_of (slot fresh_Test t "p") = Empty
  ∧ __get__ Test_p (Some t) fresh_Test = (read_Test, inr (Attr (VInt 10)))
  ∧ state_of (slot read_Test t "p") = Holding (VInt 10)
  ∧ __get__ Test_p (Some t) read_Test = (read_Test, inr (Attr (VInt 10)))
  ∧ __set__ Test_p t (VInt 20) read_Test = (written_Test, inr tt)
  ∧ state_of (slot written_Test t "p") = Empty
  ∧ __set__ Test_p t (VInt 20) fresh_Test
    = ({| store := {[ t := {[ "_p" := VInt 20 ]} ]};
          calls := [Called Test_p_set [VObj t; VInt 20]] |}, inr tt)
  ∧ __delete__ Test_p_del_too t read_Test = (deleted_Test, inr tt)
  ∧ state_of (slot deleted_Test t "p") = Empty
  ∧ (∃ f v, fget Test_p = Some f ∧ Attr (VInt 10) = Attr v
            ∧ state_of (slot read_Test t (__name__ f)) = Holding v
            ∧ (∀ c, state_of (slot fresh_Test t (__name__ f)) = Holding c →
                    read_Test = fresh_Test ∧ v = c)).
Proof.
  pose proof (proj1 (slot_two_states Test_p t (VInt 20) fresh_Test read_Test)
                Test_p_get eq_refl) as (_ & Hfill & Hset0 & _).
  pose proof (proj1 (slot_two_states Test_p t (VInt 20) read_Test written_Test)
                Test_p_get eq_refl) as (Hkeep & _ & Hset & _).
  pose proof (proj1 (slot_two_states Test_p_del_too t VNone read_Test
                       deleted_Test) Test_p_get eq_refl) as (_ & _ & _ & Hdel).
  destruct (Hfill (store fresh_Test) (VInt 10) eq_refl eq_refl) as [Hf1 Hf2].
  destruct (Hset Test_p_set
              (fst (__code__ Test_p_set [VObj t; VInt 20] (store read_Test)))
              VNone eq_refl eq_refl) as [Hs1 Hs2].
  destruct (Hset0 Test_p_set
              (fst (__code__ Test_p_set [VObj t; VInt 20] (store fresh_Test)))
              VNone eq_refl eq_refl) as [Hs3 _].
  destruct (Hdel Test_p_del
              (fst (__code__ Test_p_del [VObj t] (store read_Test)))
              VNone eq_refl eq_refl) as [Hd1 Hd2].
  do 3 (split; [reflexivity|]).
  split; [exact Hf1|]. split; [exact Hf2|].
  split; [exact (Hkeep (VInt 10) eq_refl)|].
  split; [exact Hs1|]. split; [exact Hs2|]. split; [exact Hs3|].
  split; [exact Hd1|]. split; [exact Hd2|].
  exact (proj1 (proj2 (slot_two_states Test_p t VNone fresh_Test read_Test))
           (Attr (VInt 10)) demo_read).
Defined.

(** ** Rebinding *)

Section rebinding.
Variables (g s d : option pyfunc) (doc : option string).

(** A constructed descriptor without documentation has no getter, or a
    getter without a docstring. *)
Lemma init_doc_None :
  __doc__ (__init__ g s d doc) = None →
  ∀ f, fget (__init__ g s d doc) = Some f → func_doc f = None.
Proof.
  unfold __init__; cbn. intros Hd f ->. by destruct doc.
Qed.

(** Passing the descriptor's own getter and documentation through
    [__init__] again gives the same documentation. *)
Lemma init_doc_stable :
  match __doc__ (__init__ g s d doc), fget (__init__ g s d doc) with
  | None, Some f => func_doc f
  | _, _ => __doc__ (__init__ g s d doc)
  end = __doc__ (__init__ g s d doc).
Proof.
  destruct (__doc__ (__init__ g s d doc)) eqn:Hd; [done|].
  destruct (fget (__init__ g s d doc)) as [f|] eqn:Hg; [|done].
  by apply init_doc_None.
Qed.

End rebinding.

(** C7 fails as stated: replacing the getter of a descriptor that has no
    documentation by a getter with a docstring gives a descriptor that
    carries that docstring, not the documentation of the original. *)
Lemma getter_does_not_share_doc :
  ¬ (fget (getter read_only (Some documented_get)) = Some documented_get
     ∧ fset (getter read_only (Some documented_get)) = fset read_only
     ∧ fdel (getter read_only (Some documented_get)) = fdel read_only
     ∧ __doc__ (getter read_only (Some documented_get)) = __doc__ read_only).
Proof. intros (_ & _ & _ & H). discriminate H. Qed.

(** C7, amended.  Each of [getter], [setter] and [deleter] builds a new
    descriptor in which exactly the named function is replaced and the other
    two are those of the original.  [setter] and [deleter] keep the
    documentation of the original; [getter] keeps it when the original has
    one, and otherwise takes the docstring of the new getter.  On an
    instance, reading and deleting through the descriptor returned by
    [setter] is the same computation as through the original. *)
Theorem rebind_replaces_one_function
  (g0 s0 d0 : option pyfunc) (doc0 : option string) (n : option pyfunc)
  (o : ref) (w : world) :
  let self := __init__ g0 s0 d0 doc0 in
  (fget (getter self n) = n
   ∧ fset (getter self n) = fset self
   ∧ fdel (getter self n) = fdel self
   ∧ __doc__ (getter self n) = match __doc__ self with
                               | Some d => Some d
                               | None => n ≫= func_doc
                               end)
  ∧ (fget (setter self n) = fget self
     ∧ fset (setter self n) = n
     ∧ fdel (setter self n) = fdel self
     ∧ __doc__ (setter self n) = __doc__ self)
  ∧ (fget (deleter self n) = fget self
     ∧ fset (deleter self n) = fset self
     ∧ fdel (deleter self n) = n
     ∧ __doc__ (deleter self n) = __doc__ self)
  ∧ __get__ (setter self n) (Some o) w = __get__ self (Some o) w
  ∧ __delete__ (setter self n) o w = __delete__ self o w.
Proof.
  intros self. repeat split.
  - unfold getter, __init__; cbn.
    destruct doc0, g0 as [f|], n; cbn; try done; by destruct (func_doc f).
  - apply init_doc_stable.
  - apply init_doc_stable.
Qed.

(** ** Descriptors whose getters share a name *)

(** C8.  The slot is [obj.__dict__] at the getter's [__name__].  For two
    descriptors whose getters carry the same name, on one instance: what a
    read through the first has cached is what a read through the second
    returns, without the second getter being called; and a write or a delete
    through the second empties the slot the first reads. *)
Theorem same_name_same_slot
  (a b : cached_property) (fa fb : pyfunc) (o : ref) (w : world) :
  fget a = Some fa → fget b = Some fb → __name__ fa = __name__ fb →
  (∀ h v, slot w o (__name__ fa) = None →
          __code__ fa [VObj o] (store w) = (h, inr v) →
          let w1 := fst (__get__ a (Some o) w) in
          slot w1 o (__name__ fb) = Some v
          ∧ __get__ b (Some o) w1 = (w1, inr (Attr v)))
  ∧ (∀ s x h r, fset b = Some s →
                __code__ s [VObj o; x] (store w) = (h, inr r) →
                slot (fst (__set__ b o x w)) o (__name__ fa) = None)
  ∧ (∀ d h r, fdel b = Some d →
              __code__ d [VObj o] (store w) = (h, inr r) →
              slot (fst (__delete__ b o w)) o (__name__ fa) = None).
Proof.
  intros Ha Hb Hn. split; [|split].
  - intros h v Hs Hc w1. subst w1.
    rewrite (get_miss_returns a fa o w Ha Hs h v Hc). cbn [fst].
    assert (Hv : slot {| store := cached_at h o (__name__ fa) v;
                         calls := calls w ++ [Called fa [VObj o]] |}
                   o (__name__ fb) = Some v).
    { rewrite <- Hn. apply cached_at_slot. }
    split; [exact Hv | by apply (get_hit b o _ fb v)].
  - intros s x h r Hs Hc.
    rewrite (set_returns b o w s fb x h r Hs Hb Hc). cbn [fst].
    rewrite Hn. apply invalidated_slot.
  - intros d h r Hd Hc.
    rewrite (delete_returns b o w d fb h r Hd Hb Hc). cbn [fst].
    rewrite Hn. apply invalidated_slot.
Qed.

Lemma same_name_same_slot_witness :
  fget Test_p = Some Test_p_get
  ∧ fget Mixin_p = Some mixin_p_get
  ∧ __name__ Test_p_get = __name__ mixin_p_get
  ∧ __code__ mixin_p_get [VObj t] (store read_Test)
    = (store read_Test, inr (VStr "mixin"))
  ∧ __get__ Mixin_p (Some t) read_Test = (read_Test, inr (Attr (VInt 10)))
  ∧ slot read_Test t "p" = Some (VInt 10)
  ∧ slot (fst (__set__ Mixin_p t VNone read_Test)) t "p" = None
  ∧ slot (fst (__delete__ Mixin_p t read_Test)) t "p" = None.
Proof.
  pose proof (same_name_same_slot Test_p Mixin_p Test_p_get mixin_p_get t
                fresh_Test eq_refl eq_refl eq_refl) as (Hread & _).
  pose proof (same_name_same_slot Test_p Mixin_p Test_p_get mixin_p_get t
                read_Test eq_refl eq_refl eq_refl) as (_ & Hset & Hdel).
  specialize (Hread (store fresh_Test) (VInt 10) eq_refl eq_refl).
  rewrite demo_read in Hread. destruct Hread as [_ Hread].
  do 4 (split; [reflexivity|]).
  split; [exact Hread|]. split; [reflexivity|]. split.
  - exact (Hset mixin_p_set VNone (store read_Test) VNone eq_refl eq_refl).
  - exact (Hdel mixin_p_set (store read_Test) VNone eq_refl eq_refl).
Defined.

(** ** Access through the class *)

(** C9.  A read with no instance returns the descriptor itself and leaves
    the world as it was, so nothing is called; this also holds for a
    descriptor built without a getter, where a read on an instance would be
    refused. *)
Theorem class_access_returns_descriptor
  (self : cached_property) (s d : option pyfunc) (doc : option string)
  (o : ref) (w : world) :
  __get__ self None w = (w, inr (Descriptor self))
  ∧ __get__ (__init__ None s d doc) None w
    = (w, inr (Descriptor (__init__ None s d doc)))
  ∧ __get__ (__init__ None s d doc) (Some o) w = (w, inl Unreadable).
Proof. repeat split. Qed.

(** ** Writing and deleting without a getter *)

(** C10.  With no getter bound: a write through a bound setter that
    returns normally has called the setter, once, and keeps the store the
    setter left, and then fails with the attribute error raised by looking
    up [__name__] on [None]; a delete through a bound deleter does the same
    with the deleter. *)
Theorem no_getter_fails_after_the_call
  (self : cached_property) (o : ref) (x : value) (w : world) :
  fget self = None →
  (∀ s h r, fset self = Some s →
            __code__ s [VObj o; x] (store w) = (h, inr r) →
            __set__ self o x w =
              ({| store := h; calls := calls w ++ [Called s [VObj o; x]] |},
               inl (AttributeError
                      "'NoneType' object has no attribute '__name__'")))
  ∧ (∀ d h r, fdel self = Some d →
              __code__ d [VObj o] (store w) = (h, inr r) →
              __delete__ self o w =
                ({| store := h; calls := calls w ++ [Called d [VObj o]] |},
                 inl (AttributeError
                        "'NoneType' object has no attribute '__name__'"))).
Proof.
  intros Hg. split.
  - intros s h r Hs Hc. by apply (set_returns_unbound self o w s x h r).
  - intros d h r Hd Hc. by apply (delete_returns_unbound self o w d h r).
Qed.

Lemma no_getter_fails_after_the_call_witness :
  fget write_only = None
  ∧ fset write_only = Some Test_p_set
  ∧ fget delete_only = None
  ∧ fdel delete_only = Some Test_p_del
  ∧ slot fresh_Test t "_p" = Some (VInt 10)
  ∧ snd (__set__ write_only t (VInt 20) fresh_Test) = inl NoneType_has_no_name
  ∧ slot (fst (__set__ write_only t (VInt 20) fresh_Test)) t "_p"
    = Some (VInt 20)
  ∧ snd (__delete__ delete_only t fresh_Test) = inl NoneType_has_no_name
  ∧ slot (fst (__delete__ delete_only t fresh_Test)) t "_p" = None.
Proof.
  do 5 (split; [reflexivity|]).
  pose proof (proj1 (no_getter_fails_after_the_call write_only t (VInt 20)
                       fresh_Test eq_refl)
                Test_p_set
                (fst (__code__ Test_p_set [VObj t; VInt 20] (store fresh_Test)))
                VNone eq_refl eq_refl) as Hset.
  pose proof (proj2 (no_getter_fails_after_the_call delete_only t VNone
                       fresh_Test eq_refl)
                Test_p_del
                (fst (__code__ Test_p_del [VObj t] (store fresh_Test)))
                VNone eq_refl eq_refl) as Hdel.
  rewrite Hset, Hdel. repeat split; by vm_compute.
Defined.

(** * Further properties of the descriptor *)

(** ** Building a descriptor step by step *)

Section documentation.
Variables (self : cached_property) (d0 : string).
Hypothesis Hdoc : __doc__ self = Some d0.

(** A descriptor that has documentation keeps it through every rebind. *)
Lemma getter_keeps_doc g : __doc__ (getter self g) = Some d0.
Proof. unfold getter, __init__; cbn. by rewrite Hdoc. Qed.

Lemma setter_keeps_doc s : __doc__ (setter self s) = Some d0.
Proof. unfold setter, __init__; cbn. by rewrite Hdoc. Qed.

Lemma deleter_keeps_doc d : __doc__ (deleter self d) = Some d0.
Proof. unfold deleter, __init__; cbn. by rewrite Hdoc. Qed.

End documentation.

(** Equality of descriptors, field by field. *)
Lemma cached_property_eq (a b : cached_property) :
  fget a = fget b → fset a = fset b → fdel a = fdel b → __doc__ a = __doc__ b →
  a = b.
Proof. destruct a, b; cbn; by intros -> -> -> ->. Qed.

(** X1.  Attaching the functions one at a time, as the decorators do,
    builds the very descriptor that the constructor builds from all of them
    at once: starting from the empty descriptor, or from a descriptor that
    has the getter only, and in either order of setter and deleter. *)
Theorem decorators_agree_with_constructor
  (g s d : option pyfunc) (doc : option string) :
  deleter (setter (getter (__init__ None None None doc) g) s) d
  = __init__ g s d doc
  ∧ deleter (setter (__init__ g None None doc) s) d = __init__ g s d doc
  ∧ setter (deleter (__init__ g None None doc) d) s = __init__ g s d doc.
Proof.
  repeat split; apply cached_property_eq; try reflexivity; cbn;
    destruct doc, g as [f|]; cbn; try reflexivity; by destruct (func_doc f).
Qed.

(** X2.  On a constructed descriptor the rebinds commute with one another,
    and rebinding the same function twice keeps the second one only. *)
Theorem rebinds_commute_and_last_wins
  (g0 s0 d0 : option pyfunc) (doc0 : option string)
  (g s s' d d' : option pyfunc) :
  let self := __init__ g0 s0 d0 doc0 in
  getter (setter self s) g = setter (getter self g) s
  ∧ getter (deleter self d) g = deleter (getter self g) d
  ∧ setter (deleter self d) s = deleter (setter self s) d
  ∧ setter (setter self s') s = setter self s
  ∧ deleter (deleter self d') d = deleter self d.
Proof.
  intros self. subst self.
  repeat split; apply cached_property_eq; try reflexivity; cbn;
    destruct doc0, g0 as [f0|], g as [f|]; cbn; try reflexivity;
    try (destruct (func_doc f0); cbn; try reflexivity);
    try (destruct (func_doc f); cbn; reflexivity).
Qed.

(** X3.  The documentation follows the first documented getter, not the
    current one: when a descriptor without documentation is given a getter
    with a docstring, and that getter is then replaced, the new descriptor
    has the replacement as its getter and still the docstring of the getter
    that was replaced. *)
Theorem documentation_outlives_its_getter
  (self : cached_property) (a : pyfunc) (da : string) (b : option pyfunc) :
  __doc__ self = None → func_doc a = Some da →
  fget (getter (getter self (Some a)) b) = b
  ∧ __doc__ (getter self (Some a)) = Some da
  ∧ __doc__ (getter (getter self (Some a)) b) = Some da.
Proof.
  intros Hnone Ha.
  assert (H1 : __doc__ (getter self (Some a)) = Some da).
  { unfold getter, __init__; cbn. by rewrite Hnone. }
  split; [reflexivity|]. split; [exact H1|].
  by apply getter_keeps_doc.
Qed.

Lemma documentation_outlives_its_getter_witness :
  __doc__ read_only = None
  ∧ func_doc documented_get = Some "The q of a Test."
  ∧ func_doc Test_p_get = None
  ∧ fget (getter (getter read_only (Some documented_get)) (Some Test_p_get))
    = Some Test_p_get
  ∧ __doc__ (getter (getter read_only (Some documented_get)) (Some Test_p_get))
    = Some "The q of a Test.".
Proof.
  do 3 (split; [reflexivity|]).
  pose proof (documentation_outlives_its_getter read_only documented_get
                "The q of a Test." (Some Test_p_get) eq_refl eq_refl)
    as (Hg & _ & Hd).
  split; [exact Hg | exact Hd].
Defined.

(** ** When a user function raises *)

(** X4.  A getter that raises caches nothing: the read fails with the
    getter's exception, the store is exactly what the getter left and the
    call is logged; if the getter did not fill the slot itself, the next
    read calls it again. *)
Theorem failed_getter_caches_nothing
  (self : cached_property) (f : pyfunc) (o : ref) (w : world)
  (h : gmap ref (gmap string value)) (e : exception) :
  fget self = Some f →
  slot w o (__name__ f) = None →
  __code__ f [VObj o] (store w) = (h, inl e) →
  let w1 := {| store := h; calls := calls w ++ [Called f [VObj o]] |} in
  __get__ self (Some o) w = (w1, inl e)
  ∧ (obj_dict h o !! __name__ f = None →
     calls (fst (__get__ self (Some o) w1))
     = calls w ++ [Called f [VObj o]; Called f [VObj o]]).
Proof.
  intros Hg Hs Hc w1. split.
  - by rewrite (get_miss self o w f Hg Hs), Hc.
  - intros Hstill. rewrite (get_miss_calls self f o w1 Hg Hstill).
    subst w1. cbn [calls]. by rewrite <- app_assoc.
Qed.

Lemma failed_getter_caches_nothing_witness :
  fget Test_p = Some Test_p_get
  ∧ slot bare_Test t "p" = None
  ∧ __get__ Test_p (Some t) bare_Test
    = ({| store := store bare_Test; calls := [Called Test_p_get [VObj t]] |},
       inl (no_attribute "_p"))
  ∧ calls (fst (__get__ Test_p (Some t)
                  {| store := store bare_Test;
                     calls := [Called Test_p_get [VObj t]] |}))
    = [Called Test_p_get [VObj t]; Called Test_p_get [VObj t]].
Proof.
  do 2 (split; [reflexivity|]).
  pose proof (failed_getter_caches_nothing Test_p Test_p_get t bare_Test
                (store bare_Test) (no_attribute "_p") eq_refl eq_refl eq_refl)
    as [H1 H2].
  split; [exact H1 | exact (H2 eq_refl)].
Defined.

(** X5.  A setter or deleter that raises does not invalidate: the
    operation fails with that exception, the store is exactly what the user
    function left, and a value still held in the slot is what the next read
    returns, without the getter being called. *)
Theorem failed_write_keeps_cache
  (self : cached_property) (f : pyfunc) (o : ref) (x : value) (w : world)
  (c : value) :
  fget self = Some f →
  (∀ s h e, fset self = Some s →
            __code__ s [VObj o; x] (store w) = (h, inl e) →
            obj_dict h o !! __name__ f = Some c →
            let w1 := {| store := h;
                         calls := calls w ++ [Called s [VObj o; x]] |} in
            __set__ self o x w = (w1, inl e)
            ∧ __get__ self (Some o) w1 = (w1, inr (Attr c)))
  ∧ (∀ d h e, fdel self = Some d →
              __code__ d [VObj o] (store w) = (h, inl e) →
              obj_dict h o !! __name__ f = Some c →
              let w1 := {| store := h;
                           calls := calls w ++ [Called d [VObj o]] |} in
              __delete__ self o w = (w1, inl e)
              ∧ __get__ self (Some o) w1 = (w1, inr (Attr c))).
Proof.
  intros Hg. split.
  - intros s h e Hs Hc Hheld w1. split.
    + by apply set_raises.
    + by apply (get_hit self o w1 f c).
  - intros d h e Hd Hc Hheld w1. split.
    + by apply delete_raises.
    + by apply (get_hit self o w1 f c).
Qed.

Lemma failed_write_keeps_cache_witness :
  fget Checked_p = Some Test_p_get
  ∧ fset Checked_p = Some checked_p_set
  ∧ fdel Checked_p = Some refusing_p_del
  ∧ slot read_Test t "p" = Some (VInt 10)
  ∧ snd (__set__ Checked_p t (VInt (-1)) read_Test)
    = inl (Raised "ValueError" "p must not be negative")
  ∧ slot (fst (__set__ Checked_p t (VInt (-1)) read_Test)) t "p"
    = Some (VInt 10)
  ∧ snd (__delete__ Checked_p t read_Test)
    = inl (Raised "TypeError" "p cannot be deleted")
  ∧ slot (fst (__delete__ Checked_p t read_Test)) t "p" = Some (VInt 10).
Proof.
  do 4 (split; [reflexivity|]).
  pose proof (failed_write_keeps_cache Checked_p Test_p_get t (VInt (-1))
                read_Test (VInt 10) eq_refl) as [Hset Hdel].
  destruct (Hset checked_p_set (store read_Test)
              (Raised "ValueError" "p must not be negative")
              eq_refl eq_refl eq_refl) as [Hs _].
  destruct (Hdel refusing_p_del (store read_Test)
              (Raised "TypeError" "p cannot be deleted")
              eq_refl eq_refl eq_refl) as [Hd _].
  rewrite Hs, Hd. repeat split.
Defined.

(** X6.  With a getter bound, the only exception an operation raises on
    its own account is its refusal, and then the world is unchanged; any
    other failure is the exception of the one user function that was
    called, with the store that function left.  In particular the look-ups
    and deletions in [obj.__dict__] never raise a key error of their own. *)
Theorem failure_is_refusal_or_user_exception
  (self : cached_property) (f : pyfunc) (o : ref) (x : value)
  (w w' : world) (e : exception) :
  fget self = Some f →
  (__get__ self (Some o) w = (w', inl e) →
   ∃ h, __code__ f [VObj o] (store w) = (h, inl e)
        ∧ w' = {| store := h; calls := calls w ++ [Called f [VObj o]] |})
  ∧ (__set__ self o x w = (w', inl e) →
     (fset self = None ∧ e = Unwritable ∧ w' = w)
     ∨ (∃ s h, fset self = Some s
               ∧ __code__ s [VObj o; x] (store w) = (h, inl e)
               ∧ w' = {| store := h;
                         calls := calls w ++ [Called s [VObj o; x]] |}))
  ∧ (__delete__ self o w = (w', inl e) →
     (fdel self = None ∧ e = Undeletable ∧ w' = w)
     ∨ (∃ d h, fdel self = Some d
               ∧ __code__ d [VObj o] (store w) = (h, inl e)
               ∧ w' = {| store := h;
                         calls := calls w ++ [Called d [VObj o]] |})).
Proof.
  intros Hg. split; [|split].
  - destruct (slot w o (__name__ f)) as [c|] eqn:Hs.
    + rewrite (get_hit self o w f c Hg Hs). discriminate.
    + rewrite (get_miss self o w f Hg Hs).
      destruct (__code__ f [VObj o] (store w)) as [h [e'|v]] eqn:Hc;
        intros [= <- <-]. by exists h.
  - destruct (fset self) as [s|] eqn:Hs.
    + destruct (__code__ s [VObj o; x] (store w)) as [h [e'|r]] eqn:Hc.
      * rewrite (set_raises self o w s x h e' Hs Hc). intros [= <- <-].
        right. by exists s, h.
      * rewrite (set_returns self o w s f x h r Hs Hg Hc). discriminate.
    + rewrite (set_unwritable self o w x Hs). intros [= <- <-]. by left.
  - destruct (fdel self) as [d|] eqn:Hd.
    + destruct (__code__ d [VObj o] (store w)) as [h [e'|r]] eqn:Hc.
      * rewrite (delete_raises self o w d h e' Hd Hc). intros [= <- <-].
        right. by exists d, h.
      * rewrite (delete_returns self o w d f h r Hd Hg Hc). discriminate.
    + rewrite (delete_undeletable self o w Hd). intros [= <- <-]. by left.
Qed.

Lemma failure_is_refusal_or_user_exception_witness :
  fget Checked_p = Some Test_p_get
  ∧ (∃ h, __code__ Test_p_get [VObj t] (store bare_Test)
          = (h, inl (no_attribute "_p"))
          ∧ {| store := store bare_Test;
               calls := [Called Test_p_get [VObj t]] |}
            = {| store := h; calls := calls bare_Test ++ [Called Test_p_get [VObj t]] |})
  ∧ fget read_only = Some Test_p_get
  ∧ ((fset read_only = None ∧ Unwritable = Unwritable ∧ read_Test = read_Test)
     ∨ (∃ s h, fset read_only = Some s
               ∧ __code__ s [VObj t; VNone] (store read_Test)
                 = (h, inl Unwritable)
               ∧ read_Test
                 = {| store := h;
                      calls := calls read_Test ++ [Called s [VObj t; VNone]] |})).
Proof.
  split; [reflexivity|]. split.
  - exact (proj1 (failure_is_refusal_or_user_exception Checked_p Test_p_get t
                    VNone bare_Test
                    {| store := store bare_Test;
                       calls := [Called Test_p_get [VObj t]] |}
                    (no_attribute "_p") eq_refl) eq_refl).
  - split; [reflexivity|].
    exact (proj1 (proj2 (failure_is_refusal_or_user_exception read_only
                           Test_p_get t VNone read_Test read_Test Unwritable
                           eq_refl)) eq_refl).
Defined.

(** ** Instances and names are kept apart *)

Lemma Test_p_get_confined : confined Test_p_get.
Proof.
  intros o rest h o' Hne. cbn. destruct rest; [|done].
  by destruct (obj_dict h o !! "_p").
Qed.

Lemma Test_p_set_confined : confined Test_p_set.
Proof.
  intros o rest h o' Hne. cbn. destruct rest as [|v [|]]; try done.
  cbn. by apply lookup_insert_ne.
Qed.

Lemma Test_p_del_confined : confined Test_p_del.
Proof.
  intros o rest h o' Hne. cbn. destruct rest; [|done].
  cbn. by apply lookup_insert_ne.
Qed.

Section confinement.
Variables (self : cached_property) (o o' : ref) (w : world).
Hypothesis Hne : o' ≠ o.

Lemma get_other_instance :
  confined_opt (fget self) →
  store (fst (__get__ self (Some o) w)) !! o' = store w !! o'.
Proof.
  intros Hc. destruct (fget self) as [f|] eqn:Hg.
  - destruct (slot w o (__name__ f)) as [c|] eqn:Hs.
    + by rewrite (get_hit self o w f c Hg Hs).
    + rewrite (get_miss self o w f Hg Hs).
      pose proof (Hc o [] (store w) o' Hne) as Hf.
      destruct (__code__ f [VObj o] (store w)) as [h [e|v]]; cbn in *; [done|].
      by rewrite cached_at_other_obj.
  - by rewrite (get_unreadable self o w Hg).
Qed.

Lemma set_other_instance x :
  confined_opt (fset self) →
  store (fst (__set__ self o x w)) !! o' = store w !! o'.
Proof.
  intros Hc. destruct (fset self) as [s|] eqn:Hs.
  - pose proof (Hc o [x] (store w) o' Hne) as Hf.
    destruct (__code__ s [VObj o; x] (store w)) as [h [e|r]] eqn:Hcode;
      cbn in Hf.
    + by rewrite (set_raises self o w s x h e Hs Hcode).
    + destruct (fget self) as [f|] eqn:Hg.
      * rewrite (set_returns self o w s f x h r Hs Hg Hcode). cbn.
        by rewrite invalidated_other_obj.
      * by rewrite (set_returns_unbound self o w s x h r Hs Hg Hcode).
  - by rewrite (set_unwritable self o w x Hs).
Qed.

Lemma delete_other_instance :
  confined_opt (fdel self) →
  store (fst (__delete__ self o w)) !! o' = store w !! o'.
Proof.
  intros Hc. destruct (fdel self) as [d|] eqn:Hd.
  - pose proof (Hc o [] (store w) o' Hne) as Hf.
    destruct (__code__ d [VObj o] (store w)) as [h [e|r]] eqn:Hcode;
      cbn in Hf.
    + by rewrite (delete_raises self o w d h e Hd Hcode).
    + destruct (fget self) as [f|] eqn:Hg.
      * rewrite (delete_returns self o w d f h r Hd Hg Hcode). cbn.
        by rewrite invalidated_other_obj.
      * by rewrite (delete_returns_unbound self o w d h r Hd Hg Hcode).
  - by rewrite (delete_undeletable self o w Hd).
Qed.

End confinement.

(** X7.  Caches are per instance.  When the user functions only touch the
    object they are called on, a read, a write or a delete on one object,
    successful or not, leaves the [__dict__] of every other object as it
    was, and with it every slot of every other object. *)
Theorem other_instances_are_untouched
  (self : cached_property) (o o' : ref) (x : value) (w : world) :
  confined_opt (fget self) → confined_opt (fset self) →
  confined_opt (fdel self) → o' ≠ o →
  store (fst (__get__ self (Some o) w)) !! o' = store w !! o'
  ∧ store (fst (__set__ self o x w)) !! o' = store w !! o'
  ∧ store (fst (__delete__ self o w)) !! o' = store w !! o'.
Proof.
  intros Hg Hs Hd Hne. split; [|split].
  - by apply get_other_instance.
  - by apply set_other_instance.
  - by apply delete_other_instance.
Qed.

Lemma other_instances_are_untouched_witness :
  u ≠ t
  ∧ slot two_Tests u "p" = Some (VInt 7)
  ∧ slot (fst (__set__ Test_p_del_too t (VInt 20) two_Tests)) t "p" = None
  ∧ store (fst (__set__ Test_p_del_too t (VInt 20) two_Tests)) !! u
    = store two_Tests !! u
  ∧ store (fst (__delete__ Test_p_del_too t two_Tests)) !! u
    = store two_Tests !! u
  ∧ store (fst (__get__ Test_p_del_too (Some t) two_Tests)) !! u
    = store two_Tests !! u.
Proof.
  assert (Hne : u ≠ t) by discriminate.
  pose proof (other_instances_are_untouched Test_p_del_too t u (VInt 20)
                two_Tests Test_p_get_confined Test_p_set_confined
                Test_p_del_confined Hne) as (Hg & Hs & Hd).
  split; [exact Hne|]. split; [reflexivity|]. split; [by vm_compute|].
  split; [exact Hs|]. split; [exact Hd | exact Hg].
Defined.

(** X8.  Slots under different names do not interfere.  For two
    descriptors whose getters have different names, a successful read, write
    or delete through the second leaves the slot of the first exactly as the
    user function that was called left it; the invalidation and the caching
    touch the second's slot only. *)
Theorem different_names_do_not_interfere
  (a b : cached_property) (fa fb : pyfunc) (o : ref) (x : value) (w : world) :
  fget a = Some fa → fget b = Some fb → __name__ fa ≠ __name__ fb →
  (∀ h v, slot w o (__name__ fb) = None →
          __code__ fb [VObj o] (store w) = (h, inr v) →
          slot (fst (__get__ b (Some o) w)) o (__name__ fa)
          = obj_dict h o !! __name__ fa)
  ∧ (∀ c, slot w o (__name__ fb) = Some c →
          slot (fst (__get__ b (Some o) w)) o (__name__ fa)
          = slot w o (__name__ fa))
  ∧ (∀ s h r, fset b = Some s →
              __code__ s [VObj o; x] (store w) = (h, inr r) →
              slot (fst (__set__ b o x w)) o (__name__ fa)
              = obj_dict h o !! __name__ fa)
  ∧ (∀ d h r, fdel b = Some d →
              __code__ d [VObj o] (store w) = (h, inr r) →
              slot (fst (__delete__ b o w)) o (__name__ fa)
              = obj_dict h o !! __name__ fa).
Proof.
  intros Ha Hb Hn. split; [|split; [|split]].
  - intros h v Hs Hc. rewrite (get_miss_returns b fb o w Hb Hs h v Hc).
    unfold slot; cbn. apply cached_at_other_key. congruence.
  - intros c Hs. by rewrite (get_hit b o w fb c Hb Hs).
  - intros s h r Hs Hc. rewrite (set_returns b o w s fb x h r Hs Hb Hc).
    unfold slot; cbn. apply invalidated_other_key. congruence.
  - intros d h r Hd Hc. rewrite (delete_returns b o w d fb h r Hd Hb Hc).
    unfold slot; cbn. apply invalidated_other_key. congruence.
Qed.

Lemma different_names_do_not_interfere_witness :
  fget Test_p = Some Test_p_get
  ∧ fget Test_q = Some documented_get
  ∧ __name__ Test_p_get ≠ __name__ documented_get
  ∧ slot read_Test t "p" = Some (VInt 10)
  ∧ slot (fst (__get__ Test_q (Some t) read_Test)) t "p" = Some (VInt 10)
  ∧ slot (fst (__set__ Test_q t VNone read_Test)) t "p" = Some (VInt 10)
  ∧ slot (fst (__delete__ Test_q t read_Test)) t "p" = Some (VInt 10).
Proof.
  assert (Hn : __name__ Test_p_get ≠ __name__ documented_get) by discriminate.
  pose proof (different_names_do_not_interfere Test_p Test_q Test_p_get
                documented_get t VNone read_Test eq_refl eq_refl Hn)
    as (Hget & _ & Hset & Hdel).
  do 2 (split; [reflexivity|]). split; [exact Hn|]. split; [reflexivity|].
  split; [|split].
  - exact (Hget (store read_Test) (VInt 1) eq_refl eq_refl).
  - exact (Hset mixin_p_set (store read_Test) VNone eq_refl eq_refl).
  - exact (Hdel mixin_p_set (store read_Test) VNone eq_refl eq_refl).
Defined.

(** ** Invalidation cycles *)

Lemma write_then_reads_eq
  (self : cached_property) (s f : pyfunc) (o : ref) (x : value) (w : world)
  (h h2 : gmap ref (gmap string value)) (r v : value) (n : nat) :
  fset self = Some s → fget self = Some f →
  __code__ s [VObj o; x] (store w) = (h, inr r) →
  __code__ f [VObj o] (invalidated h o (__name__ f)) = (h2, inr v) →
  write_then_reads self o x (S n) w =
    ({| store := cached_at h2 o (__name__ f) v;
        calls := calls w ++ [Called s [VObj o; x]; Called f [VObj o]] |},
     inr (replicate (S n) (Attr v))).
Proof.
  intros Hs Hg Hc Hc2. unfold write_then_reads. unfold bind at 1.
  rewrite (set_returns self o w s f x h r Hs Hg Hc).
  rewrite (reads_miss self f o Hg _ h2 v n); cbn [store calls].
  - by rewrite <- app_assoc.
  - apply invalidated_slot.
  - exact Hc2.
Qed.

(** X9.  One invalidation cycle costs one call of each function: a write
    followed by any positive number of reads calls the setter once and the
    getter once, on the store the setter left with the slot removed, and
    every read returns what that one call of the getter returned. *)
Theorem write_then_reads_calls_each_once
  (self : cached_property) (s f : pyfunc) (o : ref) (x : value) (w : world)
  (h h2 : gmap ref (gmap string value)) (r v : value) (n : nat) :
  fset self = Some s → fget self = Some f →
  __code__ s [VObj o; x] (store w) = (h, inr r) →
  __code__ f [VObj o] (invalidated h o (__name__ f)) = (h2, inr v) →
  write_then_reads self o x (S n) w =
    ({| store := cached_at h2 o (__name__ f) v;
        calls := calls w ++ [Called s [VObj o; x]; Called f [VObj o]] |},
     inr (replicate (S n) (Attr v))).
Proof. apply write_then_reads_eq. Qed.

Lemma write_then_reads_calls_each_once_witness :
  fset Test_p = Some Test_p_set
  ∧ fget Test_p = Some Test_p_get
  ∧ snd (write_then_reads Test_p t (VInt 20) 3 read_Test)
    = inr (replicate 3 (Attr (VInt 20)))
  ∧ calls (fst (write_then_reads Test_p t (VInt 20) 3 read_Test))
    = calls read_Test
        ++ [Called Test_p_set [VObj t; VInt 20]; Called Test_p_get [VObj t]].
Proof.
  do 2 (split; [reflexivity|]).
  rewrite (write_then_reads_calls_each_once Test_p Test_p_set Test_p_get t
             (VInt 20) read_Test
             (fst (__code__ Test_p_set [VObj t; VInt 20] (store read_Test)))
             (store written_Test) VNone (VInt 20) 2 eq_refl eq_refl eq_refl
             eq_refl).
  split; reflexivity.
Defined.

(** ** The demonstration and the docstring, for every instance *)

Section Test_class.
Implicit Types (h : gmap ref (gmap string value)) (o : ref) (v : value).

Lemma Test_p_set_assigns h o v :
  __code__ Test_p_set [VObj o; v] h
  = (<[o := <["_p" := v]> (obj_dict h o)]> h, inr VNone).
Proof. reflexivity. Qed.

Lemma Test_p_get_reads h o v :
  obj_dict h o !! "_p" = Some v → __code__ Test_p_get [VObj o] h = (h, inr v).
Proof. intros H. cbn. by rewrite H. Qed.

(** After the setter and the invalidation the backing field is the written
    value. *)
Lemma field_after_write h o v :
  obj_dict (invalidated (<[o := <["_p" := v]> (obj_dict h o)]> h) o "p") o
    !! "_p" = Some v.
Proof.
  rewrite invalidated_other_key by done.
  rewrite obj_dict_insert_eq. apply lookup_insert_eq.
Qed.

(** One cycle of the demonstration: [t.p = v] and [S n] reads. *)
Lemma Test_cycle o v (w : world) n :
  write_then_reads Test_p o v (S n) w =
    ({| store := cached_at
                   (invalidated (<[o := <["_p" := v]> (obj_dict (store w) o)]>
                                   (store w)) o "p") o "p" v;
        calls := calls w ++ [Called Test_p_set [VObj o; v];
                             Called Test_p_get [VObj o]] |},
     inr (replicate (S n) (Attr v))).
Proof.
  apply (write_then_reads_eq Test_p Test_p_set Test_p_get o v w _ _ VNone v n
           eq_refl eq_refl (Test_p_set_assigns _ _ _)).
  apply Test_p_get_reads, field_after_write.
Qed.

Lemma Test_cycle_slots o v (w : world) n :
  slot (fst (write_then_reads Test_p o v (S n) w)) o "p" = Some v
  ∧ slot (fst (write_then_reads Test_p o v (S n) w)) o "_p" = Some v.
Proof.
  rewrite Test_cycle. unfold slot; cbn [fst store]. split.
  - apply cached_at_slot.
  - rewrite cached_at_other_key by done. apply field_after_write.
Qed.

End Test_class.

(** X10.  The demonstration, for every object, every starting world, every
    two values and any positive numbers of reads: after [t.p = a] every read
    gives [a], after [t.p = b] every read gives [b]; the setter and the
    getter have each been called exactly twice, in the order write, read,
    write, read; and at the end the backing field and the slot both hold
    [b]. *)
Theorem demo_for_every_instance
  (o : ref) (a b : value) (n m : nat) (w : world) :
  snd (demo_with o a b (S n) (S m) w)
  = inr (replicate (S n) (Attr a), replicate (S m) (Attr b))
  ∧ calls (fst (demo_with o a b (S n) (S m) w))
    = calls w ++ [Called Test_p_set [VObj o; a]; Called Test_p_get [VObj o];
                  Called Test_p_set [VObj o; b]; Called Test_p_get [VObj o]]
  ∧ slot (fst (demo_with o a b (S n) (S m) w)) o "_p" = Some b
  ∧ slot (fst (demo_with o a b (S n) (S m) w)) o "p" = Some b.
Proof.
  unfold demo_with. unfold bind at 1 3 5 7. rewrite Test_cycle.
  unfold bind at 1 2 3 4.
  pose proof (Test_cycle_slots o b
                {| store := cached_at
                     (invalidated (<[o := <["_p" := a]> (obj_dict (store w) o)]>
                                     (store w)) o "p") o "p" a;
                   calls := calls w ++ [Called Test_p_set [VObj o; a];
                                        Called Test_p_get [VObj o]] |} m)
    as [Hp Hf].
  rewrite Test_cycle in *. cbn [fst snd calls store] in *.
  split; [reflexivity|]. split; [by rewrite <- app_assoc|]. by split.
Qed.

Section docstring.
Variables (o : ref) (z : Z) (w : world).
Hypothesis Hfield : slot w o "_p" = Some (VInt z).
Hypothesis Hfresh : slot w o "p" = None.

(** The world after the first read of [p]. *)
Lemma first_read :
  __get__ Test_p (Some o) w =
    ({| store := cached_at (store w) o "p" (VInt z);
        calls := calls w ++ [Called Test_p_get [VObj o]] |},
     inr (Attr (VInt z))).
Proof.
  apply (get_miss_returns Test_p Test_p_get o w eq_refl Hfresh).
  by apply Test_p_get_reads.
Qed.

Lemma inc_p_direct_eq (w1 : world) (z1 : Z) :
  slot w1 o "_p" = Some (VInt z1) →
  inc_p_direct o w1 =
    ({| store := <[o := <["_p" := VInt (z1 + 1)]> (obj_dict (store w1) o)]>
                   (store w1);
        calls := calls w1 |}, inr tt).
Proof.
  intros H. unfold inc_p_direct, bind, getattr_field. by rewrite H.
Qed.

Lemma read_inc_read_direct_eq :
  read_inc_read_direct o w =
    ({| store := <[o := <["_p" := VInt (z + 1)]>
                          (obj_dict (cached_at (store w) o "p" (VInt z)) o)]>
                   (cached_at (store w) o "p" (VInt z));
        calls := calls w ++ [Called Test_p_get [VObj o]] |},
     inr (Attr (VInt z), Attr (VInt z))).
Proof.
  unfold read_inc_read_direct. unfold bind at 1. rewrite first_read.
  unfold bind at 1. rewrite (inc_p_direct_eq _ z).
  - unfold bind at 1.
    rewrite (get_hit Test_p o _ Test_p_get (VInt z) eq_refl); [reflexivity|].
    unfold slot; cbn. rewrite obj_dict_insert_eq, lookup_insert_ne by done.
    apply cached_at_slot.
  - unfold slot; cbn. by rewrite cached_at_other_key.
Qed.

Lemma inc_p_property_eq (w1 : world) (z1 : Z) :
  slot w1 o "p" = Some (VInt z1) →
  inc_p_property Test_p o w1 = __set__ Test_p o (VInt (z1 + 1)) w1.
Proof.
  intros H. unfold inc_p_property. unfold bind at 1.
  by rewrite (get_hit Test_p o w1 Test_p_get (VInt z1) eq_refl H).
Qed.

Lemma read_inc_read_property_eq :
  read_inc_read_property o w =
    ({| store := cached_at
                   (invalidated
                      (<[o := <["_p" := VInt (z + 1)]>
                                (obj_dict (cached_at (store w) o "p" (VInt z)) o)]>
                         (cached_at (store w) o "p" (VInt z))) o "p")
                   o "p" (VInt (z + 1));
        calls := (calls w ++ [Called Test_p_get [VObj o]])
                 ++ [Called Test_p_set [VObj o; VInt (z + 1)]]
                 ++ [Called Test_p_get [VObj o]] |},
     inr (Attr (VInt z), Attr (VInt (z + 1)))).
Proof.
  unfold read_inc_read_property. unfold bind at 1. rewrite first_read.
  unfold bind at 1. rewrite (inc_p_property_eq _ z)
    by (unfold slot; cbn; apply cached_at_slot).
  rewrite (set_returns Test_p o _ Test_p_set Test_p_get (VInt (z + 1)) _ VNone
             eq_refl eq_refl (Test_p_set_assigns _ _ _)).
  unfold bind at 1.
  match goal with
  | |- context [__get__ Test_p (Some o) ?w1] =>
      rewrite (get_miss_returns Test_p Test_p_get o w1 eq_refl
                 (invalidated_slot _ o "p") _ (VInt (z + 1))
                 (Test_p_get_reads _ _ _ (field_after_write _ _ _)))
  end.
  cbn [store calls]. by rewrite <- app_assoc.
Qed.

End docstring.

(** X11.  The docstring's warning.  On an instance whose backing field
    holds an integer and whose slot is empty: reading [p], incrementing the
    backing field directly and reading [p] again returns the old value both
    times although the backing field has moved on, and the getter has been
    called once; when the increment goes through the property instead
    ([self.p += 1]), the second read returns the incremented value, the
    setter having been called once and the getter twice. *)
Theorem bypassing_the_property_reads_stale
  (o : ref) (z : Z) (w : world) :
  slot w o "_p" = Some (VInt z) → slot w o "p" = None →
  (snd (read_inc_read_direct o w) = inr (Attr (VInt z), Attr (VInt z))
   ∧ slot (fst (read_inc_read_direct o w)) o "_p" = Some (VInt (z + 1))
   ∧ calls (fst (read_inc_read_direct o w))
     = calls w ++ [Called Test_p_get [VObj o]])
  ∧ (snd (read_inc_read_property o w)
     = inr (Attr (VInt z), Attr (VInt (z + 1)))
     ∧ slot (fst (read_inc_read_property o w)) o "_p" = Some (VInt (z + 1))
     ∧ calls (fst (read_inc_read_property o w))
       = calls w ++ [Called Test_p_get [VObj o];
                     Called Test_p_set [VObj o; VInt (z + 1)];
                     Called Test_p_get [VObj o]]).
Proof.
  intros Hfield Hfresh. split.
  - rewrite (read_inc_read_direct_eq o z w Hfield Hfresh).
    split; [reflexivity|]. split; [|reflexivity].
    unfold slot; cbn. rewrite obj_dict_insert_eq. apply lookup_insert_eq.
  - rewrite (read_inc_read_property_eq o z w Hfield Hfresh).
    split; [reflexivity|]. split.
    + unfold slot; cbn. rewrite cached_at_other_key by done.
      apply field_after_write.
    + cbn [fst calls]. by rewrite <- app_assoc.
Qed.

Lemma bypassing_the_property_reads_stale_witness :
  slot fresh_Test t "_p" = Some (VInt 10)
  ∧ slot fresh_Test t "p" = None
  ∧ snd (read_inc_read_direct t fresh_Test)
    = inr (Attr (VInt 10), Attr (VInt 10))
  ∧ slot (fst (read_inc_read_direct t fresh_Test)) t "_p" = Some (VInt 11)
  ∧ snd (read_inc_read_property t fresh_Test)
    = inr (Attr (VInt 10), Attr (VInt 11)).
Proof.
  do 2 (split; [reflexivity|]).
  pose proof (bypassing_the_property_reads_stale t 10 fresh_Test eq_refl
                eq_refl) as ((H1 & H2 & _) & (H3 & _)).
  split; [exact H1|]. split; [exact H2 | exact H3].
Defined.

(** X12.  The getter the docstring says not to write, one that increments
    the backing field each time it runs: over any positive number of reads
    from an empty slot it runs once, so the backing field is incremented
    once and every read returns that one incremented value. *)
Theorem side_effecting_getter_runs_once
  (o : ref) (z : Z) (n : nat) (w : world) :
  slot w o "_p" = Some (VInt z) → slot w o "p" = None →
  snd (reads Counting_p o (S n) w)
  = inr (replicate (S n) (Attr (VInt (z + 1))))
  ∧ slot (fst (reads Counting_p o (S n) w)) o "_p" = Some (VInt (z + 1))
  ∧ calls (fst (reads Counting_p o (S n) w))
    = calls w ++ [Called counting_p_get [VObj o]].
Proof.
  intros Hfield Hfresh.
  rewrite (reads_miss Counting_p counting_p_get o eq_refl w
             (<[o := <["_p" := VInt (z + 1)]> (obj_dict (store w) o)]> (store w))
             (VInt (z + 1)) n Hfresh).
  - split; [reflexivity|]. split; [|reflexivity].
    unfold slot; cbn. rewrite cached_at_other_key by done.
    rewrite obj_dict_insert_eq. apply lookup_insert_eq.
  - unfold slot in Hfield. cbn. by rewrite Hfield.
Qed.

Lemma side_effecting_getter_runs_once_witness :
  slot fresh_Test t "_p" = Some (VInt 10)
  ∧ slot fresh_Test t "p" = None
  ∧ snd (reads Counting_p t 3 fresh_Test) = inr (replicate 3 (Attr (VInt 11)))
  ∧ slot (fst (reads Counting_p t 3 fresh_Test)) t "_p" = Some (VInt 11)
  ∧ calls (fst (reads Counting_p t 3 fresh_Test))
    = [Called counting_p_get [VObj t]].
Proof.
  do 2 (split; [reflexivity|]).
  exact (side_effecting_getter_runs_once t 10 2 fresh_Test eq_refl eq_refl).
Defined.

(** ** What an operation calls *)

(** X13.  An operation calls at most one user function, and only its own,
    whether it succeeds or fails.  The log after a read is the log before
    when the read is a class access, a refusal or a hit, and the log before
    followed by one call of the getter when the slot is empty; the log after
    a write is the log before when the write is refused, and otherwise the
    log before followed by one call of the setter, never one of the getter;
    the log after a delete likewise with the deleter. *)
Theorem operation_calls_only_its_own_function
  (self : cached_property) (o : ref) (x : value) (w : world) :
  calls (fst (__get__ self None w)) = calls w
  ∧ calls (fst (__get__ self (Some o) w))
    = match fget self with
      | Some f =>
          match slot w o (__name__ f) with
          | Some _ => calls w
          | None => calls w ++ [Called f [VObj o]]
          end
      | None => calls w
      end
  ∧ calls (fst (__set__ self o x w))
    = match fset self with
      | Some s => calls w ++ [Called s [VObj o; x]]
      | None => calls w
      end
  ∧ calls (fst (__delete__ self o w))
    = match fdel self with
      | Some d => calls w ++ [Called d [VObj o]]
      | None => calls w
      end.
Proof.
  split; [reflexivity|]. split; [|split].
  - destruct (fget self) as [f|] eqn:Hg.
    + destruct (slot w o (__name__ f)) as [c|] eqn:Hs.
      * by rewrite (get_hit self o w f c Hg Hs).
      * by apply get_miss_calls.
    + by rewrite (get_unreadable self o w Hg).
  - destruct (fset self) as [s|] eqn:Hs.
    + destruct (__code__ s [VObj o; x] (store w)) as [h [e|r]] eqn:Hc.
      * by rewrite (set_raises self o w s x h e Hs Hc).
      * destruct (fget self) as [f|] eqn:Hg.
        -- by rewrite (set_returns self o w s f x h r Hs Hg Hc).
        -- by rewrite (set_returns_unbound self o w s x h r Hs Hg Hc).
    + by rewrite (set_unwritable self o w x Hs).
  - destruct (fdel self) as [d|] eqn:Hd.
    + destruct (__code__ d [VObj o] (store w)) as [h [e|r]] eqn:Hc.
      * by rewrite (delete_raises self o w d h e Hd Hc).
      * destruct (fget self) as [f|] eqn:Hg.
        -- by rewrite (delete_returns self o w d f h r Hd Hg Hc).
        -- by rewrite (delete_returns_unbound self o w d h r Hd Hg Hc).
    + by rewrite (delete_undeletable self o w Hd).
Qed.
